(** * The site configuration and the Solarized Prism themes of the blog

    A shallow embedding of [docusaurus.config.ts]: the two syntax
    highlighting themes ([solarizedLight], [solarizedDark]) and the site
    configuration record ([config]), followed by the properties the
    design description states about them.

    The file holds data only.  The two operations the design description
    talks about, the palette resolver and the validation of the site
    configuration, belong to the static site generator that reads the
    file; they are modelled here from the design description and marked
    as such. *)

From Stdlib Require Import String Ascii QArith.QArith_base.
From stdpp Require Import base list strings pretty.

Local Open Scope string_scope.
Local Open Scope list_scope.

(** ** Data model *)

(** A value of a style property: the source uses string literals
    (['#93a1a1'], ['italic']) and one numeric literal ([0.7]), kept as
    the exact decimal fraction it denotes. *)
Inductive JsValue : Type :=
  | VStr (s : string)
  | VNum (q : Q).

(** A style object literal such as [{color: '#93a1a1', fontStyle: 'italic'}]:
    its properties in the order they are written. *)
Definition Style : Type := list (string * JsValue).

(** One element of a theme's [styles] array. *)
Record ThemeEntry : Type := mkEntry {
  types : list string;
  style : Style
}.

(** A [PrismTheme] object: the [plain] style and the ordered [styles]. *)
Record PrismTheme : Type := mkTheme {
  plain : Style;
  styles : list ThemeEntry
}.

(** The value of property [k] of a style object, if it has one. *)
Fixpoint field (k : string) (s : Style) : option JsValue :=
  match s with
  | [] => None
  | (k', v) :: s' => if String.eqb k k' then Some v else field k s'
  end.

(** ** The two themes, as declared *)

Definition solarizedLight : PrismTheme := {|
  plain := [("color", VStr "#657b83"); ("backgroundColor", VStr "#eee8d5")];
  styles := [
    {| types := ["comment"; "prolog"; "doctype"; "cdata"];
       style := [("color", VStr "#93a1a1"); ("fontStyle", VStr "italic")] |};
    {| types := ["punctuation"];
       style := [("color", VStr "#586e75")] |};
    {| types := ["namespace"];
       style := [("opacity", VNum (7 # 10))] |};
    {| types := ["property"; "tag"; "boolean"; "number"; "constant"; "symbol"];
       style := [("color", VStr "#268bd2")] |};
    {| types := ["attr-name"; "string"; "char"; "builtin"; "url"];
       style := [("color", VStr "#2aa198")] |};
    {| types := ["entity"];
       style := [("color", VStr "#2aa198"); ("cursor", VStr "help")] |};
    {| types := ["selector"; "inserted"];
       style := [("color", VStr "#859900")] |};
    {| types := ["atrule"; "attr-value"; "keyword"];
       style := [("color", VStr "#859900")] |};
    {| types := ["function"; "class-name"];
       style := [("color", VStr "#b58900")] |};
    {| types := ["regex"; "important"; "variable"];
       style := [("color", VStr "#cb4b16")] |};
    {| types := ["deleted"];
       style := [("color", VStr "#dc322f")] |};
    {| types := ["important"; "bold"];
       style := [("fontWeight", VStr "bold")] |};
    {| types := ["italic"];
       style := [("fontStyle", VStr "italic")] |}
  ]
|}.

Definition solarizedDark : PrismTheme := {|
  plain := [("color", VStr "#839496"); ("backgroundColor", VStr "#073642")];
  styles := [
    {| types := ["comment"; "prolog"; "doctype"; "cdata"];
       style := [("color", VStr "#586e75"); ("fontStyle", VStr "italic")] |};
    {| types := ["punctuation"];
       style := [("color", VStr "#93a1a1")] |};
    {| types := ["namespace"];
       style := [("opacity", VNum (7 # 10))] |};
    {| types := ["property"; "tag"; "boolean"; "number"; "constant"; "symbol"];
       style := [("color", VStr "#268bd2")] |};
    {| types := ["attr-name"; "string"; "char"; "builtin"; "url"];
       style := [("color", VStr "#2aa198")] |};
    {| types := ["entity"];
       style := [("color", VStr "#2aa198"); ("cursor", VStr "help")] |};
    {| types := ["selector"; "inserted"];
       style := [("color", VStr "#859900")] |};
    {| types := ["atrule"; "attr-value"; "keyword"];
       style := [("color", VStr "#859900")] |};
    {| types := ["function"; "class-name"];
       style := [("color", VStr "#b58900")] |};
    {| types := ["regex"; "important"; "variable"];
       style := [("color", VStr "#cb4b16")] |};
    {| types := ["deleted"];
       style := [("color", VStr "#dc322f")] |};
    {| types := ["important"; "bold"];
       style := [("fontWeight", VStr "bold")] |};
    {| types := ["italic"];
       style := [("fontStyle", VStr "italic")] |}
  ]
|}.

(** ** The site configuration, as declared *)

(** The values [onBrokenLinks] ranges over. *)
Inductive ReportingSeverity : Type := ignore | warn | throw.

Record I18nConfig : Type := mkI18n {
  defaultLocale : string;
  locales : list string
}.

(** [themeConfig.prism]. *)
Record PrismConfig : Type := mkPrism {
  theme : PrismTheme;
  darkTheme : PrismTheme
}.

(** The configuration object handed to the generator.  A property of an
    object literal may be left out, so every top-level property is
    optional here: [Some v] is a property written with value [v].  The
    presets, navbar and footer sub-records play no part below and are
    left out. *)
Record Config : Type := mkConfig {
  title : option string;
  tagline : option string;
  favicon : option string;
  url : option string;
  baseUrl : option string;
  onBrokenLinks : option ReportingSeverity;
  i18n : option I18nConfig;
  prism : option PrismConfig
}.

Definition config : Config := {|
  title := Some "Alex Hart";
  tagline := Some "Android Developer";
  favicon := Some "img/favicon.ico";
  url := Some "https://your-docusaurus-site.example.com";
  baseUrl := Some "/";
  onBrokenLinks := Some throw;
  i18n := Some {| defaultLocale := "en"; locales := ["en"] |};
  prism := Some {| theme := solarizedLight; darkTheme := solarizedDark |}
|}.

(** ** The palette resolver *)

(** The colour mode chosen at render time. *)
Inductive Mode : Type := light | dark.

(** The theme a mode selects: [prism.theme] in light mode and
    [prism.darkTheme] in dark mode. *)
Definition theme_of (m : Mode) : PrismTheme :=
  match m with
  | light => solarizedLight
  | dark => solarizedDark
  end.

(** Modelled from the spec: the palette resolver, which is part of the
    generator's highlighter and not of this repository.  "The consuming
    highlighter resolves a token's style by first matching entry whose
    category set contains the token's category" and "unknown categories
    fall back to the Palette's plainColor/plainBackground". *)
Definition resolve_in (p : PrismTheme) (category : string) : Style :=
  match list_find (λ e, category ∈ types e) (styles p) with
  | Some (_, e) => style e
  | None => plain p
  end.

Definition resolve (category : string) (m : Mode) : Style :=
  resolve_in (theme_of m) category.

(** The position of the entry that decides a category, if any. *)
Definition resolve_index (p : PrismTheme) (category : string) : option nat :=
  fst <$> list_find (λ e, category ∈ types e) (styles p).

(** Every category some entry of a theme lists, in declaration order. *)
Definition categories (p : PrismTheme) : list string :=
  e ← styles p; types e.

(** ** Well-formedness of style objects *)

Definition is_hex_digit (a : ascii) : bool :=
  let n := nat_of_ascii a in
  ((48 <=? n) && (n <=? 57) || (97 <=? n) && (n <=? 102)
   || (65 <=? n) && (n <=? 70))%nat.

(** A hex colour: [#] followed by 3, 4, 6 or 8 hexadecimal digits. *)
Definition is_hex_color (s : string) : bool :=
  match s with
  | String "#" digits =>
      forallb is_hex_digit (list_ascii_of_string digits)
      && (let n := String.length digits in
          ((n =? 3) || (n =? 4) || (n =? 6) || (n =? 8))%nat)
  | _ => false
  end.

(** The style has a [color] property holding a hex colour. *)
Definition has_hex_color (s : Style) : bool :=
  match field "color" s with
  | Some (VStr h) => is_hex_color h
  | _ => false
  end.

(** A property of the TokenStyle shape: [color] (a hex colour),
    [fontStyle: italic], [fontWeight: bold] or a numeric [opacity]. *)
Definition token_style_field (kv : string * JsValue) : bool :=
  match kv with
  | (k, VStr v) =>
      (String.eqb k "color" && is_hex_color v)
      || (String.eqb k "fontStyle" && String.eqb v "italic")
      || (String.eqb k "fontWeight" && String.eqb v "bold")
  | (k, VNum _) => String.eqb k "opacity"
  end.

Definition nonempty (s : string) : bool := negb (String.eqb s "").

(** The shape the design description gives every palette entry:
    non-empty categories, a [color] holding a hex colour, and no
    property outside the TokenStyle shape. *)
Definition entry_has_token_style (e : ThemeEntry) : bool :=
  forallb nonempty (types e)
  && has_hex_color (style e)
  && forallb token_style_field (style e).

(** What the entries of the two themes do satisfy.  The categories are
    non-empty.  A [color], where there is one, holds a hex colour; it is
    missing exactly on the [namespace], [important]/[bold] and [italic]
    entries, whose styles are a numeric [opacity] alone, [fontWeight:
    'bold'] alone and [fontStyle: 'italic'] alone.  The [entity] entry,
    and no other, carries [cursor: 'help'].  Every other property is of
    the TokenStyle shape. *)
Definition entry_as_declared (e : ThemeEntry) : Prop :=
  Forall (λ c, c ≠ "") (types e)
  ∧ (∀ v, field "color" (style e) = Some v →
          ∃ h, v = VStr h ∧ is_hex_color h = true)
  ∧ (field "color" (style e) = None
     ↔ types e = ["namespace"] ∨ types e = ["important"; "bold"]
       ∨ types e = ["italic"])
  ∧ (types e = ["namespace"] → ∃ q, style e = [("opacity", VNum q)])
  ∧ (types e = ["important"; "bold"] → style e = [("fontWeight", VStr "bold")])
  ∧ (types e = ["italic"] → style e = [("fontStyle", VStr "italic")])
  ∧ (types e = ["entity"] → field "cursor" (style e) = Some (VStr "help"))
  ∧ (types e ≠ ["entity"] → field "cursor" (style e) = None)
  ∧ Forall (λ kv, token_style_field kv = true
                  ∨ (kv = ("cursor", VStr "help") ∧ types e = ["entity"]))
           (style e).

(** ** Construction of the site configuration *)

(** The configuration after validation: the required properties are
    there. *)
Record SiteConfig : Type := mkSite {
  site_title : string;
  site_url : string;
  site_baseUrl : string;
  site_source : Config
}.

(** The names of the required properties the object leaves out. *)
Definition missing_required (c : Config) : list string :=
  (if title c is None then ["title"] else [])
  ++ (if url c is None then ["url"] else [])
  ++ (if baseUrl c is None then ["baseUrl"] else []).

(** Modelled from the spec: the generator's validation of the
    configuration, which is not part of this repository.  "Construction
    fails (at process start, not at runtime) if required fields are
    absent (title, url, baseUrl)". *)
Definition construct (c : Config) : list string + SiteConfig :=
  match title c, url c, baseUrl c with
  | Some t, Some u, Some b =>
      inr {| site_title := t; site_url := u; site_baseUrl := b; site_source := c |}
  | _, _, _ => inl (missing_required c)
  end.

(** ** The rest of the configuration object *)

(** [feedOptions] of the blog plugin. *)
Record FeedOptions : Type := mkFeed {
  type : list string;
  xslt : bool
}.

(** [presets[0][1].blog]: the options of the blog plugin of the classic
    preset. *)
Record BlogOptions : Type := mkBlog {
  routeBasePath : string;
  showReadingTime : bool;
  feedOptions : FeedOptions;
  blogSidebarTitle : string;
  blogSidebarCount : nat;
  onInlineTags : ReportingSeverity;
  onInlineAuthors : ReportingSeverity;
  onUntruncatedBlogPosts : ReportingSeverity
}.

Definition blog : BlogOptions := {|
  routeBasePath := "/";
  showReadingTime := true;
  feedOptions := {| type := ["rss"; "atom"]; xslt := true |};
  blogSidebarTitle := "Recent Posts";
  blogSidebarCount := 10;
  onInlineTags := warn;
  onInlineAuthors := warn;
  onUntruncatedBlogPosts := warn
|}.

(** [themeConfig.navbar]. *)
Module Navbar.
Inductive Position : Type := left | right.

(** A navbar item links inside the site ([to]) or outside it ([href]). *)
Record Item : Type := mkItem {
  to : option string;
  href : option string;
  label : string;
  position : Position
}.

Record t : Type := mk {
  title : string;
  items : list Item
}.
End Navbar.

(** [themeConfig.footer]. *)
Module Footer.
Record LinkItem : Type := mkItem {
  label : string;
  href : string
}.

Record LinkGroup : Type := mkGroup {
  title : string;
  items : list LinkItem
}.

Record t : Type := mk {
  style : string;
  links : list LinkGroup;
  copyright : string
}.
End Footer.

Definition navbar : Navbar.t := {|
  Navbar.title := "Alex Hart";
  Navbar.items := [
    {| Navbar.to := Some "/"; Navbar.href := None;
       Navbar.label := "Blog"; Navbar.position := Navbar.left |};
    {| Navbar.to := None; Navbar.href := Some "https://github.com/exallium";
       Navbar.label := "GitHub"; Navbar.position := Navbar.right |};
    {| Navbar.to := None; Navbar.href := Some "https://androiddev.social/@exallium";
       Navbar.label := "Mastodon"; Navbar.position := Navbar.right |}
  ]
|}.

(** The template literal of [footer.copyright].  [year] is what
    [new Date().getFullYear()] returns when the file is evaluated, an
    integer, which the template writes in decimal.  The copyright sign
    is held as its two UTF-8 bytes. *)
Definition copyright (year : Z) : string :=
  "Copyright © " +:+ pretty year +:+ " Alex Hart. Built with Docusaurus.".

Definition footer (year : Z) : Footer.t := {|
  Footer.style := "light";
  Footer.links := [
    {| Footer.title := "Connect";
       Footer.items := [
         {| Footer.label := "GitHub"; Footer.href := "https://github.com/exallium" |};
         {| Footer.label := "Mastodon"; Footer.href := "https://androiddev.social/@exallium" |}
       ] |}
  ];
  Footer.copyright := copyright year
|}.

(** The external links of the navbar, as (label, href) pairs. *)
Definition navbar_external (n : Navbar.t) : list (string * string) :=
  it ← Navbar.items n;
  match Navbar.href it with
  | Some h => [(Navbar.label it, h)]
  | None => []
  end.

(** The links of every group of the footer, as (label, href) pairs. *)
Definition footer_links (f : Footer.t) : list (string * string) :=
  g ← Footer.links f;
  (λ it, (Footer.label it, Footer.href it)) <$> Footer.items g.

(** A navbar item is well formed when it has exactly one target: an
    internal one that is a route of the blog, or an external [https]
    address. *)
Definition item_target_ok (it : Navbar.Item) : bool :=
  match Navbar.to it, Navbar.href it with
  | Some t, None => String.eqb t (routeBasePath blog)
  | None, Some h => String.prefix "https://" h
  | _, _ => false
  end.

(** ** Properties *)

Example resolve_string_light :
  resolve "string" light = [("color", VStr "#2aa198")].
Proof. vm_compute. reflexivity. Qed.

Example entity_not_token_style :
  entry_has_token_style (mkEntry ["entity"] [("color", VStr "#2aa198"); ("cursor", VStr "help")]) = false.
Proof. vm_compute. reflexivity. Qed.

(** The themes the resolver reads are the ones the configuration hands
    to the highlighter. *)
Lemma theme_of_config :
  prism config
  = Some {| theme := theme_of light; darkTheme := theme_of dark |}.
Proof. reflexivity. Qed.

Section FirstMatch.
Variable p : PrismTheme.
Variable c : string.

(** The entry at position [i] lists [c] and no entry before it does. *)
Definition first_listing (i : nat) (e : ThemeEntry) : Prop :=
  styles p !! i = Some e
  ∧ c ∈ types e
  ∧ ∀ j e', j < i → styles p !! j = Some e' → c ∉ types e'.

Lemma resolve_index_first i :
  resolve_index p c = Some i ↔ ∃ e, first_listing i e.
Proof.
  unfold resolve_index, first_listing. split.
  - destruct (list_find _ _) as [[k e]|] eqn:Hfind; [|discriminate].
    intros [= <-]. exists e.
    apply list_find_Some in Hfind as (Hk & Hin & Hbefore).
    repeat split; [done..|]. intros j e' Hj He'. by eapply Hbefore.
  - intros (e & Hi & Hin & Hbefore).
    assert (list_find (λ e0, c ∈ types e0) (styles p) = Some (i, e)) as ->; [|done].
    apply list_find_Some. repeat split; [done..|].
    intros j y Hy Hj. by eapply Hbefore.
Qed.

Lemma resolve_in_first i e :
  first_listing i e → resolve_in p c = style e.
Proof.
  intros (Hi & Hin & Hbefore). unfold resolve_in.
  assert (list_find (λ e0, c ∈ types e0) (styles p) = Some (i, e)) as ->; [|done].
  apply list_find_Some. repeat split; [done..|].
  intros j y Hy Hj. by eapply Hbefore.
Qed.

End FirstMatch.

(** Membership in a list of string literals, settled by comparison. *)
Ltac split_elem H :=
  repeat (apply elem_of_cons in H as [H|H]; [try subst; try discriminate|]);
  try (by apply elem_of_nil in H).

(** C1: for every category and either palette, the resolver returns the
    style of the first entry, in declaration order, whose categories
    contain the category: when entry [i] lists the category and no entry
    before it does, the result is exactly the style of entry [i],
    whatever later entries list. *)
Theorem resolve_first_match_wins (category : string) (m : Mode) (i : nat) (e : ThemeEntry) :
  styles (theme_of m) !! i = Some e →
  category ∈ types e →
  (∀ j e', j < i → styles (theme_of m) !! j = Some e' → category ∉ types e') →
  resolve category m = style e.
Proof.
  intros Hi Hin Hbefore. unfold resolve.
  apply (resolve_in_first _ _ i). by repeat split.
Qed.

Lemma resolve_first_match_wins_witness :
  resolve "important" dark = [("color", VStr "#cb4b16")].
Proof.
  apply (resolve_first_match_wins "important" dark 9
           {| types := ["regex"; "important"; "variable"];
              style := [("color", VStr "#cb4b16")] |}).
  - reflexivity.
  - apply list_elem_of_In. simpl. tauto.
  - intros j e' Hj He'.
    do 9 (destruct j as [|j]; [injection He' as <-; intros H; split_elem H|]).
    lia.
Defined.




(** C3, as the design description states it, fails: the third entry of
    the light palette, for [namespace], has a style with no [color]
    property at all (only [opacity]), and the sixth, for [entity],
    carries a [cursor] property, which is outside the TokenStyle shape. *)
Lemma namespace_entry_has_no_color :
  let namespace := {| types := ["namespace"]; style := [("opacity", VNum (7 # 10))] |} in
  let entity := {| types := ["entity"];
                   style := [("color", VStr "#2aa198"); ("cursor", VStr "help")] |} in
  styles (theme_of light) !! 2 = Some namespace
  ∧ field "color" (style namespace) = None
  ∧ entry_has_token_style namespace = false
  ∧ styles (theme_of light) !! 5 = Some entity
  ∧ field "cursor" (style entity) = Some (VStr "help")
  ∧ entry_has_token_style entity = false.
Proof. vm_compute. by repeat split. Qed.

(** Settles [entry_as_declared] for an entry written out in full, one
    conjunct after the other. *)
Ltac entry_by_cases :=
  unfold entry_as_declared; simpl;
  split; [repeat (constructor; [discriminate|]); constructor|];
  split; [intros v Hv;
          first [discriminate Hv
                | injection Hv as <-; eexists; split; reflexivity]|];
  split; [split; [intros Hc; first [discriminate Hc | by auto]
                 |intros [H|[H|H]]; first [discriminate H | reflexivity]]|];
  do 4 (split; [intros H;
                first [discriminate H | reflexivity | eexists; reflexivity]|]);
  split; [intros H; first [reflexivity | by destruct H]|];
  repeat (constructor; [first [left; reflexivity | right; by split]|]);
  constructor.

(** C3, amended: in both palettes every category string of every entry
    is non-empty; a [color] property, where the style has one, holds a
    syntactically valid hex colour, and it is missing exactly on the
    [namespace], [important]/[bold] and [italic] entries, which carry
    only a numeric [opacity], [fontWeight: 'bold'] and [fontStyle:
    'italic'] respectively; every property is one of the TokenStyle
    shape (hex [color], italic [fontStyle], bold [fontWeight], numeric
    [opacity]), except [cursor: 'help'], which the [entity] entry, and
    only it, carries. *)
Theorem palette_entries_as_declared (m : Mode) :
  Forall entry_as_declared (styles (theme_of m)).
Proof.
  destruct m; simpl; repeat (apply Forall_cons; split);
    first [entry_by_cases | constructor].
Qed.

(** C4: a category is listed by some entry of the light palette exactly
    when it is listed by some entry of the dark palette. *)
Theorem light_dark_categories_symmetric (category : string) :
  (∃ e, e ∈ styles (theme_of light) ∧ category ∈ types e)
  ↔ (∃ e, e ∈ styles (theme_of dark) ∧ category ∈ types e).
Proof.
  assert (categories solarizedLight = categories solarizedDark) as Heq by reflexivity.
  assert (∀ p, (∃ e, e ∈ styles p ∧ category ∈ types e) ↔ category ∈ categories p) as Hcat.
  { intros p. unfold categories. rewrite list_elem_of_bind.
    split; intros (e & H1 & H2); by exists e. }
  rewrite (Hcat (theme_of light)), (Hcat (theme_of dark)). simpl. by rewrite Heq.
Qed.

(** C5: [keyword] resolves to exactly [{color: '#859900'}] in light mode
    and in dark mode, so the two modes agree on it. *)
Theorem resolve_keyword_both_modes :
  resolve "keyword" light = [("color", VStr "#859900")]
  ∧ resolve "keyword" dark = [("color", VStr "#859900")]
  ∧ resolve "keyword" light = resolve "keyword" dark.
Proof. vm_compute. by repeat split. Qed.

(** C7: the broken-link policy of the configuration is [throw], the
    value that fails the build, and neither [ignore] nor [warn]. *)
Theorem onBrokenLinks_throws :
  onBrokenLinks config = Some throw
  ∧ onBrokenLinks config ≠ Some ignore
  ∧ onBrokenLinks config ≠ Some warn.
Proof. repeat split; discriminate. Qed.

(** C8: construction of the site configuration fails exactly when one of
    the required properties [title], [url], [baseUrl] is absent, naming
    at least one missing property; the configuration of this repository
    has all three, so its construction succeeds. *)
Theorem construct_requires_title_url_baseUrl :
  (∀ c : Config,
     (title c = None ∨ url c = None ∨ baseUrl c = None)
     ↔ ∃ missing, construct c = inl missing ∧ missing ≠ [])
  ∧ (∃ site, construct config = inr site
             ∧ site_title site = "Alex Hart"
             ∧ site_url site = "https://your-docusaurus-site.example.com"
             ∧ site_baseUrl site = "/").
Proof.
  split.
  - intros [[t|] ? ? [u|] [b|] ? ? ?]; unfold construct, missing_required; simpl;
      split; try (intros [|[|]]; discriminate);
      try (intros (missing & [=] & _); fail);
      try (intros _; eexists; split; [reflexivity|discriminate]);
      try (intros; tauto).
  - eexists. by repeat split.
Qed.

(** C9: in both palettes [important] is listed by exactly two entries,
    the tenth with style [{color: '#cb4b16'}] and the twelfth with style
    [{fontWeight: 'bold'}]; [important] resolves to exactly
    [{color: '#cb4b16'}], with no [fontWeight]; and the twelfth entry
    decides one category only, [bold]. *)
Theorem important_resolves_to_first_listing (m : Mode) :
  styles (theme_of m) !! 9
    = Some {| types := ["regex"; "important"; "variable"];
              style := [("color", VStr "#cb4b16")] |}
  ∧ styles (theme_of m) !! 11
    = Some {| types := ["important"; "bold"];
              style := [("fontWeight", VStr "bold")] |}
  ∧ length (filter (λ e, "important" ∈ types e) (styles (theme_of m))) = 2
  ∧ resolve "important" m = [("color", VStr "#cb4b16")]
  ∧ field "fontWeight" (resolve "important" m) = None
  ∧ resolve "bold" m = [("fontWeight", VStr "bold")]
  ∧ ∀ category, resolve_index (theme_of m) category = Some 11 ↔ category = "bold".
Proof.
  repeat split; try (destruct m; vm_compute; reflexivity).
  - intros (e & He & Hin & Hbefore)%resolve_index_first.
    assert (e = {| types := ["important"; "bold"];
                   style := [("fontWeight", VStr "bold")] |}) as ->.
    { destruct m; simpl in He; congruence. }
    simpl in Hin. apply elem_of_cons in Hin as [->|Hin].
    + destruct (Hbefore 9 {| types := ["regex"; "important"; "variable"];
                             style := [("color", VStr "#cb4b16")] |}).
      * lia.
      * by destruct m.
      * apply list_elem_of_In. simpl. tauto.
    + by apply list_elem_of_singleton in Hin.
  - intros ->. by destruct m.
Qed.

(** C10: the default locale of the configuration, [en], is one of its
    declared locales. *)
Theorem defaultLocale_is_declared :
  ∃ l, i18n config = Some l
       ∧ defaultLocale l = "en"
       ∧ defaultLocale l ∈ locales l.
Proof.
  eexists. repeat split. apply list_elem_of_In. simpl. tauto.
Qed.

(** ** Further properties of the themes *)

(** X1: in either palette every listed category other than [important]
    is listed by exactly one entry, so the order of the entries can
    matter for [important] alone. *)
Theorem other_categories_listed_once (m : Mode) (category : string) :
  category ∈ categories (theme_of m) →
  category ≠ "important" →
  length (filter (λ e, category ∈ types e) (styles (theme_of m))) = 1.
Proof.
  intros Hc Hne. destruct m; unfold categories in Hc; simpl in Hc.
  all: repeat (apply elem_of_cons in Hc as [->|Hc];
               [first [by destruct Hne | by vm_compute]|]).
  all: by apply elem_of_nil in Hc.
Qed.

Lemma other_categories_listed_once_witness :
  length (filter (λ e, "keyword" ∈ types e) (styles (theme_of dark))) = 1.
Proof.
  apply (other_categories_listed_once dark "keyword").
  - apply list_elem_of_In. vm_compute. tauto.
  - discriminate.
Defined.

(** X2: the dark palette mirrors the light one entry by entry.  The two
    have the same number of entries; entries at the same position list
    the same categories and agree on every property but [color]; and
    from the third entry on the styles are equal, so the palettes differ
    in the colours of the comment group and of punctuation only. *)
Theorem dark_mirrors_light :
  length (styles solarizedLight) = length (styles solarizedDark)
  ∧ ∀ (i : nat) (el ed : ThemeEntry),
      styles solarizedLight !! i = Some el →
      styles solarizedDark !! i = Some ed →
      types el = types ed
      ∧ (∀ k, k ≠ "color" → field k (style el) = field k (style ed))
      ∧ ((2 ≤ i)%nat → style el = style ed).
Proof.
  split; [reflexivity|]. intros i el ed Hl Hd.
  do 2 (destruct i as [|i];
        [injection Hl as <-; injection Hd as <-; repeat split;
         [intros k Hk; simpl; by destruct (String.eqb_spec k "color") | lia]|]).
  do 11 (destruct i as [|i];
         [injection Hl as <-; injection Hd as <-; by repeat split|]).
  discriminate.
Qed.

Lemma dark_mirrors_light_witness :
  types (mkEntry ["punctuation"] [("color", VStr "#586e75")])
  = types (mkEntry ["punctuation"] [("color", VStr "#93a1a1")])
  ∧ (∀ k, k ≠ "color" →
       field k (style (mkEntry ["punctuation"] [("color", VStr "#586e75")]))
       = field k (style (mkEntry ["punctuation"] [("color", VStr "#93a1a1")])))
  ∧ ((2 ≤ 1)%nat →
       style (mkEntry ["punctuation"] [("color", VStr "#586e75")])
       = style (mkEntry ["punctuation"] [("color", VStr "#93a1a1")])).
Proof.
  exact (proj2 dark_mirrors_light 1
           (mkEntry ["punctuation"] [("color", VStr "#586e75")])
           (mkEntry ["punctuation"] [("color", VStr "#93a1a1")])
           eq_refl eq_refl).
Defined.

(** X3: no token is drawn in the colour of the background.  In either
    palette the plain style has a [backgroundColor]; the plain [color]
    differs from it, so does the [color] of every entry, and no entry
    sets a [backgroundColor] of its own. *)
Theorem colors_differ_from_background (m : Mode) :
  ∃ bg, field "backgroundColor" (plain (theme_of m)) = Some bg
        ∧ field "color" (plain (theme_of m)) ≠ Some bg
        ∧ Forall (λ e, field "color" (style e) ≠ Some bg
                       ∧ field "backgroundColor" (style e) = None)
                 (styles (theme_of m)).
Proof.
  destruct m; eexists; (split; [reflexivity|]); (split; [discriminate|]).
  all: repeat constructor; discriminate.
Qed.

(** ** Properties of the navigation and the footer *)

Lemma string_length_app (s1 s2 : string) :
  String.length (s1 +:+ s2) = String.length s1 + String.length s2.
Proof. induction s1 as [|a s1 IH]; simpl; [done|]. by rewrite <- IH. Qed.

Lemma string_app_inj_r (s s1 s2 : string) :
  s1 +:+ s = s2 +:+ s → s1 = s2.
Proof.
  revert s2. induction s1 as [|a s1 IH]; intros [|b s2] Heq; [done|..].
  - apply (f_equal String.length) in Heq.
    rewrite !string_length_app in Heq. simpl in Heq. lia.
  - apply (f_equal String.length) in Heq.
    rewrite !string_length_app in Heq. simpl in Heq. lia.
  - change (String a (s1 +:+ s) = String b (s2 +:+ s)) in Heq.
    injection Heq as -> Heq. f_equal. by apply IH.
Qed.

(** X4: the copyright notice determines the year it was built for: the
    notices of two different years differ, so the footer follows the
    calendar without an edit of the file. *)
Theorem copyright_determines_year (y1 y2 : Z) :
  Footer.copyright (footer y1) = Footer.copyright (footer y2) → y1 = y2.
Proof.
  simpl. unfold copyright. intros Heq.
  apply (inj (String.app _)) in Heq.
  apply string_app_inj_r in Heq.
  by apply (inj pretty) in Heq.
Qed.

Lemma copyright_determines_year_witness : 2026%Z = (2025 + 1)%Z.
Proof. apply (copyright_determines_year 2026 (2025 + 1)). reflexivity. Defined.

(** X5: the footer's links are the external links of the navbar: a
    (label, address) pair is a link of some footer group exactly when a
    navbar item with that label has that [href], whatever the year. *)
Theorem footer_links_mirror_navbar (year : Z) (l h : string) :
  (l, h) ∈ footer_links (footer year) ↔ (l, h) ∈ navbar_external navbar.
Proof. reflexivity. Qed.

(** X6: every navbar item has exactly one target, either an internal
    route, which is the route the blog is served at, or an external
    [https] address; and every footer link is an [https] address. *)
Theorem link_targets_well_formed (year : Z) :
  Forall (λ it, item_target_ok it = true) (Navbar.items navbar)
  ∧ Forall (λ lh, String.prefix "https://" lh.2 = true) (footer_links (footer year)).
Proof. split; repeat constructor. Qed.

(** X7: the site goes by one name: the title of the configuration is the
    title of the navbar, and the copyright notice of every year names
    it. *)
Theorem site_name_consistent (year : Z) :
  title config = Some (Navbar.title navbar)
  ∧ ∃ before after,
      Footer.copyright (footer year) = before +:+ Navbar.title navbar +:+ after.
Proof.
  split; [reflexivity|].
  exists ("Copyright © " +:+ pretty year +:+ " "), ". Built with Docusaurus.".
  simpl. unfold copyright.
  generalize (pretty year). intros s.
  change ("Copyright © " +:+ s +:+ " Alex Hart. Built with Docusaurus.")
    with ("Copyright © " +:+ (s +:+ " Alex Hart. Built with Docusaurus.")).
  induction s as [|a s IH]; [reflexivity|].
  vm_compute. vm_compute in IH. congruence.
Qed.
